(** * ECE595RL PWM lab: collision latch, indicator task and drive sequences

    A shallow embedding of [PWM_main.c] and [Timer_A1_Interrupt.c].

    The firmware runs on a bare MSP432: one cooperative main loop plus two
    interrupt sources (bumper edge on port 4, Timer A1 compare).  The C
    globals and the memory-mapped registers the two files touch become the
    fields of one [machine] record; every C function becomes a function
    [machine -> machine].  Calls into drivers whose bodies live in other
    translation units (motor layer, busy-wait delay, servo PWM, RGB LED)
    are recorded, in program order, in the [trace] field. *)

From Stdlib Require Import ZArith List String Ascii Bool Lia.
Import ListNotations.

Local Open Scope string_scope.
Local Open Scope list_scope.
Local Open Scope Z_scope.

(** ** Fixed-width integers *)

Module Width.

(** Conversion to [uint8_t], [uint16_t], [uint32_t]: reduction modulo 2^w. *)
Definition u8 (x : Z) : Z := x mod 256.
Definition u16 (x : Z) : Z := x mod 65536.
Definition u32 (x : Z) : Z := x mod 4294967296.

Definition is_u8 (x : Z) : Prop := 0 <= x < 256.
Definition is_u16 (x : Z) : Prop := 0 <= x < 65536.

End Width.
Import Width.

(** ** Calls that leave the two modelled files *)

(** The five operations of [Motor.h], with the two [uint16_t] duty
    arguments as passed. *)
Inductive motor_command : Type :=
| Forward (left_duty right_duty : Z)
| Backward (left_duty right_duty : Z)
| Left (left_duty right_duty : Z)
| Right (left_duty right_duty : Z)
| Stop.

(** The two colour macros of [GPIO.h] that [main] passes to [LED2_Output]. *)
Inductive rgb_led : Type := RGB_LED_RED | RGB_LED_BLUE.

(** The two compare outputs of Timer A2. *)
Inductive pwm_line : Type := Line_1 | Line_2.

(** One-shot set-up calls made by [main] before the loop. *)
Inductive init_call : Type :=
| Init_Clock_48MHz
| Init_LED1
| Init_LED2
| Init_P8
| Init_Buttons
| Init_EUSCI_A0_UART_Printf
| Init_Bumper_Sensors
| Init_Timer_A2_PWM (period duty_1 duty_2 : Z)
| Init_Motor
| Init_EnableInterrupts.

Inductive event : Type :=
| Ev_Motor (c : motor_command)
| Ev_Delay (ms : Z)
| Ev_Servo (line : pwm_line) (duty : Z)
| Ev_LED2 (colour : rgb_led)
| Ev_Init (c : init_call).

(** ** Machine state *)

(** Registers of Timer A1 written by [Timer_A1_Interrupt.c]. *)
Record timer_a1_regs : Type := mk_timer_a1 {
  CTL : Z;      (* 16 bit *)
  CCTL0 : Z;    (* 16 bit *)
  CCR0 : Z;     (* 16 bit *)
  EX0 : Z       (* 16 bit *)
}.

(** Registers of the interrupt controller written by [Timer_A1_Interrupt.c]. *)
Record nvic_regs : Type := mk_nvic {
  IP2 : Z;      (* 32 bit *)
  ISER0 : Z;    (* 32 bit *)
  ICER0 : Z     (* 32 bit *)
}.

(** Values a pointer to a [void f(void)] function takes in this program. *)
Inductive task_ptr : Type := Ptr_Timer_A1_10_Hz_Task.

Record machine : Type := mk_machine {
  bumper_sensor_value : Z;           (* uint8_t global *)
  collision_detected : Z;            (* uint8_t global, the collision latch *)
  P8_OUT : Z;                        (* P8->OUT, 8 bit *)
  TIMER_A1 : timer_a1_regs;
  NVIC : nvic_regs;
  Timer_A1_Task : option task_ptr;   (* registered callback, [None] = unset *)
  uart : string;                     (* characters sent by printf, oldest first *)
  trace : list event                 (* driver calls, oldest first *)
}.

Definition set_collision_detected (v : Z) (m : machine) : machine :=
  mk_machine (bumper_sensor_value m) v (P8_OUT m) (TIMER_A1 m) (NVIC m)
             (Timer_A1_Task m) (uart m) (trace m).

Definition set_P8_OUT (v : Z) (m : machine) : machine :=
  mk_machine (bumper_sensor_value m) (collision_detected m) v (TIMER_A1 m)
             (NVIC m) (Timer_A1_Task m) (uart m) (trace m).

Definition set_TIMER_A1 (r : timer_a1_regs) (m : machine) : machine :=
  mk_machine (bumper_sensor_value m) (collision_detected m) (P8_OUT m) r
             (NVIC m) (Timer_A1_Task m) (uart m) (trace m).

Definition set_NVIC (r : nvic_regs) (m : machine) : machine :=
  mk_machine (bumper_sensor_value m) (collision_detected m) (P8_OUT m)
             (TIMER_A1 m) r (Timer_A1_Task m) (uart m) (trace m).

Definition set_Timer_A1_Task (t : option task_ptr) (m : machine) : machine :=
  mk_machine (bumper_sensor_value m) (collision_detected m) (P8_OUT m)
             (TIMER_A1 m) (NVIC m) t (uart m) (trace m).

Definition set_uart (s : string) (m : machine) : machine :=
  mk_machine (bumper_sensor_value m) (collision_detected m) (P8_OUT m)
             (TIMER_A1 m) (NVIC m) (Timer_A1_Task m) s (trace m).

Definition emit (e : event) (m : machine) : machine :=
  mk_machine (bumper_sensor_value m) (collision_detected m) (P8_OUT m)
             (TIMER_A1 m) (NVIC m) (Timer_A1_Task m) (uart m) (trace m ++ [e]).

(** ** Driver calls, as seen from the two files *)

Definition Motor_Forward (l r : Z) : machine -> machine := emit (Ev_Motor (Forward l r)).
Definition Motor_Backward (l r : Z) : machine -> machine := emit (Ev_Motor (Backward l r)).
Definition Motor_Left (l r : Z) : machine -> machine := emit (Ev_Motor (Left l r)).
Definition Motor_Right (l r : Z) : machine -> machine := emit (Ev_Motor (Right l r)).
Definition Motor_Stop : machine -> machine := emit (Ev_Motor Stop).
Definition Clock_Delay1ms (ms : Z) : machine -> machine := emit (Ev_Delay ms).
Definition Timer_A2_Update_Duty_Cycle_1 (d : Z) : machine -> machine := emit (Ev_Servo Line_1 d).
Definition Timer_A2_Update_Duty_Cycle_2 (d : Z) : machine -> machine := emit (Ev_Servo Line_2 d).
Definition LED2_Output (c : rgb_led) : machine -> machine := emit (Ev_LED2 c).

(** ** printf with the one conversion the program uses *)

Module Printf.

Definition nl : string := String (ascii_of_nat 10) EmptyString.

(** Digit characters of the [X] conversion. *)
Definition hex_digit_upper (d : Z) : ascii :=
  match d with
  | 0 => "0" | 1 => "1" | 2 => "2" | 3 => "3" | 4 => "4"
  | 5 => "5" | 6 => "6" | 7 => "7" | 8 => "8" | 9 => "9"
  | 10 => "A" | 11 => "B" | 12 => "C" | 13 => "D" | 14 => "E"
  | _ => "F"
  end%char.

(** Most significant digit first; [fuel] bounds the number of digits. *)
Fixpoint hex_upper_aux (fuel : nat) (v : Z) (acc : string) : string :=
  match fuel with
  | O => acc
  | S fuel' =>
      let acc' := String (hex_digit_upper (v mod 16)) acc in
      if v / 16 =? 0 then acc' else hex_upper_aux fuel' (v / 16) acc'
  end.

(** [%X] on an [unsigned int]: at most eight digits, no leading zeros. *)
Definition fmt_X (v : Z) : string := hex_upper_aux 8 (u32 v) "".

Fixpoint zeros (n : nat) : string :=
  match n with
  | O => EmptyString
  | S n' => String "0"%char (zeros n')
  end.

(** Flag [0] with a minimum field width: pad with zeros on the left. *)
Definition pad0 (width : nat) (s : string) : string :=
  (zeros (width - String.length s) ++ s)%string.

(** [%02X]. *)
Definition fmt_02X (v : Z) : string := pad0 2 (fmt_X v).

Definition is_upper_hex (c : ascii) : bool :=
  let n := nat_of_ascii c in
  ((48 <=? n) && (n <=? 57))%nat || ((65 <=? n) && (n <=? 70))%nat.

(** The number a hexadecimal digit character stands for, [-1] for any
    other character. *)
Definition hex_value (c : ascii) : Z :=
  let n := Z.of_nat (nat_of_ascii c) in
  if (48 <=? n) && (n <=? 57) then n - 48
  else if (65 <=? n) && (n <=? 70) then n - 55
  else if (97 <=? n) && (n <=? 102) then n - 87
  else -1.

Fixpoint count_char (c : ascii) (s : string) : nat :=
  match s with
  | EmptyString => O
  | String c' s' => ((if Ascii.eqb c c' then 1 else 0) + count_char c s')%nat
  end.

(** Number of complete lines in a character stream. *)
Definition lines (s : string) : nat := count_char (ascii_of_nat 10) s.

End Printf.

Definition printf (s : string) (m : machine) : machine := set_uart (uart m ++ s)%string m.

Definition collision_message (bumper_sensor_state : Z) : string :=
  ("Collision Detected! Bumper Sensor State: 0x"
     ++ Printf.fmt_02X bumper_sensor_state ++ Printf.nl)%string.

(** ** PWM_main.c *)

Definition Bumper_Sensors_Handler (bumper_sensor_state : Z) (m : machine) : machine :=
  if collision_detected m =? 0 then
    let m1 := printf (collision_message bumper_sensor_state) m in
    set_collision_detected 1 m1
  else m.

Definition Timer_A1_10_Hz_Task (m : machine) : machine :=
  if collision_detected m =? 0 then
    let m1 := set_P8_OUT (u8 (Z.lxor (P8_OUT m) 0x21)) m in
    set_P8_OUT (u8 (Z.land (P8_OUT m1) (Z.lnot 0xC0))) m1
  else
    let m1 := set_P8_OUT (u8 (Z.lxor (P8_OUT m) 0xC0)) m in
    set_P8_OUT (u8 (Z.land (P8_OUT m1) (Z.lnot 0x21))) m1.

(** A function body without branches is the list of its statements. *)
Definition stmt : Type := machine -> machine.

Definition run (body : list stmt) (m : machine) : machine :=
  fold_left (fun acc f => f acc) body m.

Definition Drive_Pattern_1_body : list stmt :=
  [ Motor_Forward 7500 7500; Clock_Delay1ms 2000;
    Motor_Stop;              Clock_Delay1ms 2000;
    Motor_Left 4500 4500;    Clock_Delay1ms 2000;
    Motor_Stop;              Clock_Delay1ms 2000;
    Motor_Right 4500 4500;   Clock_Delay1ms 2000;
    Motor_Stop;              Clock_Delay1ms 2000;
    Motor_Backward 4500 4500; Clock_Delay1ms 2000;
    Motor_Stop;              Clock_Delay1ms 2000 ].

Definition Drive_Pattern_1 : machine -> machine := run Drive_Pattern_1_body.

Definition Handle_Collision_body : list stmt :=
  [ Motor_Stop;               Clock_Delay1ms 2000;
    Motor_Backward 4500 4500; Clock_Delay1ms 3000;
    Motor_Stop;               Clock_Delay1ms 1000;
    Motor_Right 1500 1500;    Clock_Delay1ms 5000;
    Motor_Stop;               Clock_Delay1ms 2000;
    set_collision_detected 0 ].

Definition Handle_Collision : machine -> machine := run Handle_Collision_body.


(** ** Timer_A1_Interrupt.c *)

Definition set_CTL (v : Z) (r : timer_a1_regs) : timer_a1_regs :=
  mk_timer_a1 v (CCTL0 r) (CCR0 r) (EX0 r).
Definition set_CCTL0 (v : Z) (r : timer_a1_regs) : timer_a1_regs :=
  mk_timer_a1 (CTL r) v (CCR0 r) (EX0 r).
Definition set_CCR0 (v : Z) (r : timer_a1_regs) : timer_a1_regs :=
  mk_timer_a1 (CTL r) (CCTL0 r) v (EX0 r).
Definition set_EX0 (v : Z) (r : timer_a1_regs) : timer_a1_regs :=
  mk_timer_a1 (CTL r) (CCTL0 r) (CCR0 r) v.

Definition set_IP2 (v : Z) (r : nvic_regs) : nvic_regs := mk_nvic v (ISER0 r) (ICER0 r).
Definition set_ISER0 (v : Z) (r : nvic_regs) : nvic_regs := mk_nvic (IP2 r) v (ICER0 r).
Definition set_ICER0 (v : Z) (r : nvic_regs) : nvic_regs := mk_nvic (IP2 r) (ISER0 r) v.

(** Read-modify-write of one Timer A1 or NVIC register. *)
Definition on_TIMER_A1 (f : timer_a1_regs -> timer_a1_regs) (m : machine) : machine :=
  set_TIMER_A1 (f (TIMER_A1 m)) m.
Definition on_NVIC (f : nvic_regs -> nvic_regs) (m : machine) : machine :=
  set_NVIC (f (NVIC m)) m.

Definition Timer_A1_Interrupt_Init (task : task_ptr) (period : Z) (m : machine) : machine :=
  let m := set_Timer_A1_Task (Some task) m in
  let m := on_TIMER_A1 (fun r => set_CTL (u16 (Z.land (CTL r) (Z.lnot 0x0030))) r) m in
  let m := on_TIMER_A1 (fun r => set_CTL (u16 (Z.lor (CTL r) 0x0280)) r) m in
  let m := on_TIMER_A1 (fun r => set_CCTL0 (u16 (Z.lor (CCTL0 r) 0x0010)) r) m in
  let m := on_TIMER_A1 (fun r => set_CCR0 (u16 (period - 1)) r) m in
  let m := on_TIMER_A1 (fun r => set_EX0 (u16 (Z.lor (EX0 r) 0x0005)) r) m in
  let m := on_NVIC (fun r => set_IP2 (u32 (Z.lor (Z.land (IP2 r) 0xFF00FFFF) 0x00400000)) r) m in
  let m := on_NVIC (fun r => set_ISER0 (u32 (Z.lor (ISER0 r) 0x00000400)) r) m in
  on_TIMER_A1 (fun r => set_CTL (u16 (Z.lor (CTL r) 0x0014)) r) m.

Definition TimerA1_Stop (m : machine) : machine :=
  let m := on_TIMER_A1 (fun r => set_CTL (u16 (Z.land (CTL r) (Z.lnot 0x0030))) r) m in
  on_NVIC (fun r => set_ICER0 0x00000400 r) m.

(** Call through a function pointer. *)
Definition call_task (p : task_ptr) : machine -> machine :=
  match p with
  | Ptr_Timer_A1_10_Hz_Task => Timer_A1_10_Hz_Task
  end.

(** [None]: the call goes through a pointer nobody has set. *)
Definition TA1_0_IRQHandler (m : machine) : option machine :=
  let m := on_TIMER_A1 (fun r => set_CCTL0 (u16 (Z.land (CCTL0 r) (Z.lnot 0x0001))) r) m in
  match Timer_A1_Task m with
  | Some p => Some (call_task p m)
  | None => None
  end.

(** ** main *)

(** Everything [main] does before the loop.  [ccr0] is the value of the
    macro [TIMER_A1_INT_CCR0_VALUE], defined in a header. *)
Definition main_init_body (ccr0 : Z) : list stmt :=
  [ emit (Ev_Init Init_Clock_48MHz);
    emit (Ev_Init Init_LED1);
    emit (Ev_Init Init_LED2);
    emit (Ev_Init Init_P8);
    emit (Ev_Init Init_Buttons);
    emit (Ev_Init Init_EUSCI_A0_UART_Printf);
    emit (Ev_Init Init_Bumper_Sensors);
    Timer_A1_Interrupt_Init Ptr_Timer_A1_10_Hz_Task ccr0;
    emit (Ev_Init (Init_Timer_A2_PWM 60000 0 0));
    emit (Ev_Init Init_Motor);
    set_collision_detected 0;
    emit (Ev_Init Init_EnableInterrupts) ].

Definition main_init (ccr0 : Z) : machine -> machine := run (main_init_body ccr0).

(** The statements of the [while(1)] body that are compiled. *)
Definition main_loop_body : list stmt :=
  [ Timer_A2_Update_Duty_Cycle_1 1700;
    Timer_A2_Update_Duty_Cycle_2 1700;
    LED2_Output RGB_LED_RED;
    Clock_Delay1ms 5000;
    Timer_A2_Update_Duty_Cycle_1 7000;
    Timer_A2_Update_Duty_Cycle_2 7000;
    LED2_Output RGB_LED_BLUE;
    Clock_Delay1ms 5000 ].

Definition main_loop_iteration : machine -> machine := run main_loop_body.

(** ** The running system

    A configuration is the machine together with what is left of the
    current pass through the loop body.  Between any two statements of the
    main context either interrupt may be served; a handler runs to
    completion.  A busy-wait touches nothing the handlers read, so an
    interrupt taken during a delay is the same as one taken just before or
    just after it. *)

Definition config : Type := (machine * list stmt)%type.

Inductive label : Type :=
| L_stmt                (* the main context executes its next statement *)
| L_loop                (* back edge of [while(1)] *)
| L_bumper (b : Z)      (* bumper edge, sampled bitmask [b] *)
| L_timer.              (* Timer A1 compare interrupt *)

Inductive step : label -> config -> config -> Prop :=
| step_stmt : forall m f k,
    step L_stmt (m, f :: k) (f m, k)
| step_loop : forall m,
    step L_loop (m, []) (m, main_loop_body)
| step_bumper : forall m k b,
    is_u8 b ->
    step (L_bumper b) (m, k) (Bumper_Sensors_Handler b m, k)
| step_timer : forall m m' k,
    TA1_0_IRQHandler m = Some m' ->
    step L_timer (m, k) (m', k).

(** Configurations the program can be in once [main] has entered the loop. *)
Inductive reachable (ccr0 : Z) : config -> Prop :=
| reach_init : forall m0,
    reachable ccr0 (main_init ccr0 m0, main_loop_body)
| reach_step : forall l c c',
    reachable ccr0 c -> step l c c' -> reachable ccr0 c'.

Definition latch (c : config) : Z := collision_detected (fst c).

(** The calls a function adds to the trace. *)
Definition emitted (f : machine -> machine) (m : machine) : list event :=
  skipn (List.length (trace m)) (trace (f m)).

(** Motor commands and delays among a list of calls. *)
Fixpoint motor_commands (t : list event) : list motor_command :=
  match t with
  | [] => []
  | Ev_Motor c :: t' => c :: motor_commands t'
  | _ :: t' => motor_commands t'
  end.

Fixpoint delays (t : list event) : list Z :=
  match t with
  | [] => []
  | Ev_Delay ms :: t' => ms :: delays t'
  | _ :: t' => delays t'
  end.

(** A trace read as a Drive Sequence: each motor command paired with the
    delay that follows it.  [None] when the trace has any other shape. *)
Fixpoint drive_steps (t : list event) : option (list (motor_command * Z)) :=
  match t with
  | [] => Some []
  | Ev_Motor c :: Ev_Delay ms :: t' =>
      match drive_steps t' with
      | Some steps => Some ((c, ms) :: steps)
      | None => None
      end
  | _ => None
  end.

(** The machine at reset: C zero-initialises the two globals, no callback
    is registered, nothing has been printed or called. *)
Definition reset_machine : machine :=
  mk_machine 0 0 0 (mk_timer_a1 0 0 0 0) (mk_nvic 0 0 0) None "" [].

(** Indicator groups on port 8. *)
Definition front_yellow : Z := 0x21.
Definition back_red : Z := 0xC0.

(** Function bodies the main context can be inside of. *)
Definition main_context_code : list (list stmt) :=
  [ main_loop_body; Drive_Pattern_1_body; Handle_Collision_body ].

(** [k] is what is left of one of those bodies. *)
Definition at_program_point (k : list stmt) : Prop :=
  exists body n, In body main_context_code /\ k = skipn n body.

Definition latch_is_boolean (m : machine) : Prop :=
  collision_detected m = 0 \/ collision_detected m = 1.

(** ** PWM channel driver

    [Timer_A2_PWM.c] is not among the sources; [main] only calls it. *)

(** Modelled from the spec: the PWM Channel data model of section 3, a
    period and one duty value per output line (the driver source
    [Timer_A2_PWM.c] is missing). *)
Record pwm_channel : Type := mk_pwm {
  pwm_period : Z;
  pwm_duty_1 : Z;
  pwm_duty_2 : Z
}.

(** Modelled from the spec: "value is clamped to [0, period]" (section 4.1;
    the driver source [Timer_A2_PWM.c] is missing). *)
Definition clamp (lo hi v : Z) : Z := Z.max lo (Z.min v hi).

(** Modelled from the spec: [update_duty(channel_index, value)] of section
    4.1, "updates one output's duty value without disturbing the other or
    the period; value is clamped to [0, period]" (the driver source
    [Timer_A2_PWM.c] is missing). *)
Definition update_duty (line : pwm_line) (value : Z) (ch : pwm_channel) : pwm_channel :=
  match line with
  | Line_1 => mk_pwm (pwm_period ch) (clamp 0 (pwm_period ch) value) (pwm_duty_2 ch)
  | Line_2 => mk_pwm (pwm_period ch) (pwm_duty_1 ch) (clamp 0 (pwm_period ch) value)
  end.

Definition pwm_duty (line : pwm_line) (ch : pwm_channel) : Z :=
  match line with
  | Line_1 => pwm_duty_1 ch
  | Line_2 => pwm_duty_2 ch
  end.

Definition other_line (line : pwm_line) : pwm_line :=
  match line with
  | Line_1 => Line_2
  | Line_2 => Line_1
  end.

(** The calls [Handle_Collision] makes, in order. *)
Definition recovery_calls : list event :=
  [ Ev_Motor Stop;                  Ev_Delay 2000;
    Ev_Motor (Backward 4500 4500);  Ev_Delay 3000;
    Ev_Motor Stop;                  Ev_Delay 1000;
    Ev_Motor (Right 1500 1500);     Ev_Delay 5000;
    Ev_Motor Stop;                  Ev_Delay 2000 ].

(** The calls [Drive_Pattern_1] makes, in order. *)
Definition demo_calls : list event :=
  [ Ev_Motor (Forward 7500 7500);   Ev_Delay 2000;
    Ev_Motor Stop;                  Ev_Delay 2000;
    Ev_Motor (Left 4500 4500);      Ev_Delay 2000;
    Ev_Motor Stop;                  Ev_Delay 2000;
    Ev_Motor (Right 4500 4500);     Ev_Delay 2000;
    Ev_Motor Stop;                  Ev_Delay 2000;
    Ev_Motor (Backward 4500 4500);  Ev_Delay 2000;
    Ev_Motor Stop;                  Ev_Delay 2000 ].

(** The calls one pass through the loop body makes, in order. *)
Definition sweep_calls : list event :=
  [ Ev_Servo Line_1 1700; Ev_Servo Line_2 1700; Ev_LED2 RGB_LED_RED;  Ev_Delay 5000;
    Ev_Servo Line_1 7000; Ev_Servo Line_2 7000; Ev_LED2 RGB_LED_BLUE; Ev_Delay 5000 ].

(** A statement that never changes the latch. *)
Definition preserves_latch (f : stmt) : Prop :=
  forall m, collision_detected (f m) = collision_detected m.

(** The machine right after the first bumper edge (sensor 3) that follows
    start-up; 50000 stands for the period macro, whose value plays no role. *)
Definition machine_after_collision : machine :=
  Bumper_Sensors_Handler 0x08 (main_init 50000 reset_machine).

(** ** Executions of more than one step *)

(** [run_to c c']: the system gets from [c] to [c'] in zero or more steps. *)
Inductive run_to : config -> config -> Prop :=
| run_refl : forall c, run_to c c
| run_step : forall c c' c'' l, run_to c c' -> step l c' c'' -> run_to c c''.

(** The configuration in which [main] enters its loop, having started on
    machine [m0]. *)
Definition start (ccr0 : Z) (m0 : machine) : config :=
  (main_init ccr0 m0, main_loop_body).

(** The calls made by [q] whole passes through the loop body followed by
    the first [n] statements of the next pass. *)
Definition sweep_trace (q n : nat) : list event :=
  List.concat (repeat sweep_calls q) ++ firstn n sweep_calls.

(** The set-up calls [main] makes, in order. *)
Definition init_calls : list event :=
  [ Ev_Init Init_Clock_48MHz; Ev_Init Init_LED1; Ev_Init Init_LED2;
    Ev_Init Init_P8; Ev_Init Init_Buttons; Ev_Init Init_EUSCI_A0_UART_Printf;
    Ev_Init Init_Bumper_Sensors; Ev_Init (Init_Timer_A2_PWM 60000 0 0);
    Ev_Init Init_Motor; Ev_Init Init_EnableInterrupts ].

(** At most one of the two indicator groups has a bit lit. *)
Definition groups_exclusive (out : Z) : Prop :=
  Z.land out front_yellow = 0 \/ Z.land out back_red = 0.


(** * Properties *)

(** ** Arithmetic on fixed-width values *)

Section WidthFacts.

Lemma u8_range x : is_u8 (u8 x).
Proof. unfold is_u8, u8. apply Z.mod_pos_bound. lia. Qed.

Lemma u8_id x : is_u8 x -> u8 x = x.
Proof. unfold is_u8, u8. intros H. apply Z.mod_small. exact H. Qed.

Lemma u8_testbit x i :
  0 <= i -> Z.testbit (u8 x) i = (i <? 8) && Z.testbit x i.
Proof.
  intros Hi. unfold u8. change 256 with (2 ^ 8).
  destruct (Z.ltb_spec i 8) as [Hlt | Hge].
  - rewrite Z.mod_pow2_bits_low by lia. reflexivity.
  - rewrite Z.mod_pow2_bits_high by lia. reflexivity.
Qed.

(** Bits of a value cleared under a mask stay out of the mask, also after
    truncation to eight bits. *)
Lemma cleared_group_is_zero x mask :
  Z.land (u8 (Z.land x (Z.lnot mask))) mask = 0.
Proof.
  apply Z.bits_inj'. intros n Hn.
  rewrite Z.land_spec, u8_testbit, Z.land_spec, Z.lnot_spec, Z.bits_0 by lia.
  destruct (Z.testbit mask n); simpl.
  - rewrite !andb_false_r. reflexivity.
  - apply andb_false_r.
Qed.

End WidthFacts.

(** ** Traces *)

Section TraceFacts.

Lemma skipn_length_app {A} (l l' : list A) : skipn (List.length l) (l ++ l') = l'.
Proof. induction l as [| a l IH]; simpl; [reflexivity | exact IH]. Qed.

Lemma emitted_of_app f m t : trace (f m) = trace m ++ t -> emitted f m = t.
Proof. intros H. unfold emitted. rewrite H. apply skipn_length_app. Qed.

Lemma trace_emit e m : trace (emit e m) = trace m ++ [e].
Proof. reflexivity. Qed.

End TraceFacts.

(** Unfolds a straight-line body and normalises the trace it builds. *)
Ltac run_body :=
  cbv [run fold_left
       Drive_Pattern_1 Drive_Pattern_1_body Handle_Collision Handle_Collision_body
       main_loop_iteration main_loop_body
       Motor_Forward Motor_Backward Motor_Left Motor_Right Motor_Stop
       Clock_Delay1ms Timer_A2_Update_Duty_Cycle_1 Timer_A2_Update_Duty_Cycle_2
       LED2_Output emit set_collision_detected firstn
       trace collision_detected bumper_sensor_value P8_OUT uart
       TIMER_A1 NVIC Timer_A1_Task];
  rewrite <- ?app_assoc; simpl app.

(** ** Drive sequences *)

Section DriveSequences.

Lemma Handle_Collision_trace m :
  trace (Handle_Collision m) = trace m ++ recovery_calls.
Proof. run_body. reflexivity. Qed.

Lemma Handle_Collision_prefix_trace m :
  trace (run (firstn 10 Handle_Collision_body) m) = trace m ++ recovery_calls.
Proof. run_body. reflexivity. Qed.

Lemma Handle_Collision_clears m : collision_detected (Handle_Collision m) = 0.
Proof. reflexivity. Qed.

Lemma Handle_Collision_prefix_latch m :
  Forall (fun n => collision_detected (run (firstn n Handle_Collision_body) m)
                   = collision_detected m)
         (seq 0 11).
Proof. repeat constructor. Qed.

(** C1.  The collision-recovery maneuver issues exactly five motor commands,
    each followed by its blocking delay: Stop 2000 ms, Backward(4500,4500)
    3000 ms, Stop 1000 ms, Right(1500,1500) 5000 ms, Stop 2000 ms.  The
    latch keeps its value through every prefix of those ten calls; the
    write of 0 to the latch is the last statement, made after the final
    delay, and adds no call of its own. *)
Theorem Handle_Collision_sequence : forall m : machine,
  drive_steps (emitted Handle_Collision m)
    = Some [ (Stop, 2000); (Backward 4500 4500, 3000); (Stop, 1000);
             (Right 1500 1500, 5000); (Stop, 2000) ]
  /\ Forall (fun n => collision_detected (run (firstn n Handle_Collision_body) m)
                      = collision_detected m)
            (seq 0 11)
  /\ emitted (run (firstn 10 Handle_Collision_body)) m = emitted Handle_Collision m
  /\ Handle_Collision m
       = set_collision_detected 0 (run (firstn 10 Handle_Collision_body) m)
  /\ collision_detected (Handle_Collision m) = 0.
Proof.
  intros m.
  rewrite (emitted_of_app _ _ _ (Handle_Collision_trace m)).
  rewrite (emitted_of_app _ _ _ (Handle_Collision_prefix_trace m)).
  split; [reflexivity |].
  split; [apply Handle_Collision_prefix_latch |].
  split; [reflexivity |].
  split; reflexivity.
Qed.

Lemma Drive_Pattern_1_trace m :
  trace (Drive_Pattern_1 m) = trace m ++ demo_calls.
Proof. run_body. reflexivity. Qed.

(** C2.  The demonstration pattern issues exactly eight motor commands,
    Forward(7500,7500), Stop, Left(4500,4500), Stop, Right(4500,4500), Stop,
    Backward(4500,4500), Stop, each followed by a delay of 2000 ms, and
    nothing else: the sixteen calls are all it adds to the trace, and the
    motor commands among them are those eight. *)
Theorem Drive_Pattern_1_sequence : forall m : machine,
  drive_steps (emitted Drive_Pattern_1 m)
    = Some [ (Forward 7500 7500, 2000); (Stop, 2000);
             (Left 4500 4500, 2000);    (Stop, 2000);
             (Right 4500 4500, 2000);   (Stop, 2000);
             (Backward 4500 4500, 2000); (Stop, 2000) ]
  /\ motor_commands (emitted Drive_Pattern_1 m)
       = [ Forward 7500 7500; Stop; Left 4500 4500; Stop;
           Right 4500 4500; Stop; Backward 4500 4500; Stop ]
  /\ delays (emitted Drive_Pattern_1 m) = repeat 2000 8
  /\ List.length (emitted Drive_Pattern_1 m) = 16%nat.
Proof.
  intros m.
  rewrite (emitted_of_app _ _ _ (Drive_Pattern_1_trace m)).
  repeat split.
Qed.

End DriveSequences.

(** ** Formatting *)

Section PrintfFacts.

Import Printf.

Lemma hex_digit_upper_is_upper_hex d :
  0 <= d < 16 -> is_upper_hex (hex_digit_upper d) = true.
Proof.
  intros Hd.
  assert (Hcases : d = 0 \/ d = 1 \/ d = 2 \/ d = 3 \/ d = 4 \/ d = 5 \/ d = 6
                   \/ d = 7 \/ d = 8 \/ d = 9 \/ d = 10 \/ d = 11 \/ d = 12
                   \/ d = 13 \/ d = 14 \/ d = 15) by lia.
  repeat (destruct Hcases as [-> | Hcases]; [reflexivity |]).
  subst d. reflexivity.
Qed.

Lemma hex_value_hex_digit_upper d :
  0 <= d < 16 -> hex_value (hex_digit_upper d) = d.
Proof.
  intros Hd.
  assert (Hcases : d = 0 \/ d = 1 \/ d = 2 \/ d = 3 \/ d = 4 \/ d = 5 \/ d = 6
                   \/ d = 7 \/ d = 8 \/ d = 9 \/ d = 10 \/ d = 11 \/ d = 12
                   \/ d = 13 \/ d = 14 \/ d = 15) by lia.
  repeat (destruct Hcases as [-> | Hcases]; [reflexivity |]).
  subst d. reflexivity.
Qed.

Lemma hex_digit_upper_not_nl d : Ascii.eqb (ascii_of_nat 10) (hex_digit_upper d) = false.
Proof.
  unfold hex_digit_upper.
  repeat match goal with
         | |- context [match ?x with _ => _ end] => destruct x
         end; reflexivity.
Qed.

(** [%02X] of an eight-bit value is its two hexadecimal digits, high
    nibble first. *)
Lemma fmt_02X_u8 b :
  is_u8 b ->
  fmt_02X b = String (hex_digit_upper (b / 16))
                (String (hex_digit_upper (b mod 16)) EmptyString).
Proof.
  intros Hb. unfold is_u8 in Hb.
  unfold fmt_02X, fmt_X, u32. rewrite (Z.mod_small b) by lia.
  assert (Hq : 0 <= b / 16 < 16).
  { split; [apply Z.div_pos; lia | apply Z.div_lt_upper_bound; lia]. }
  cbn [hex_upper_aux].
  destruct (Z.eqb_spec (b / 16) 0) as [Hz | Hnz].
  - rewrite Hz. reflexivity.
  - rewrite (Z.mod_small (b / 16)) by lia.
    rewrite (Z.div_small (b / 16)) by lia.
    reflexivity.
Qed.

Lemma count_char_app c s t :
  count_char c (s ++ t)%string = (count_char c s + count_char c t)%nat.
Proof.
  induction s as [| a s IH]; simpl; [reflexivity |].
  rewrite IH. lia.
Qed.

Lemma collision_message_one_line b : is_u8 b -> lines (collision_message b) = 1%nat.
Proof.
  intros Hb. unfold lines, collision_message.
  rewrite (fmt_02X_u8 b Hb).
  rewrite !count_char_app. cbn [count_char nl].
  rewrite !hex_digit_upper_not_nl. reflexivity.
Qed.

End PrintfFacts.

(** ** The bumper interrupt handler *)

Section Handler.

Import Printf.

Lemma Handler_latched b m :
  collision_detected m <> 0 -> Bumper_Sensors_Handler b m = m.
Proof.
  intros H. unfold Bumper_Sensors_Handler.
  destruct (Z.eqb_spec (collision_detected m) 0); [contradiction | reflexivity].
Qed.

Lemma Handler_first_edge b m :
  collision_detected m = 0 ->
  Bumper_Sensors_Handler b m
    = set_collision_detected 1 (set_uart (uart m ++ collision_message b)%string m).
Proof.
  intros H. unfold Bumper_Sensors_Handler. rewrite H. reflexivity.
Qed.

Lemma Handler_sets_latch b m :
  collision_detected m = 0 -> collision_detected (Bumper_Sensors_Handler b m) = 1.
Proof. intros H. rewrite (Handler_first_edge b m H). reflexivity. Qed.

Lemma Handler_idempotent b m :
  Bumper_Sensors_Handler b (Bumper_Sensors_Handler b m) = Bumper_Sensors_Handler b m.
Proof.
  destruct (Z.eq_dec (collision_detected m) 0) as [H0 | Hn].
  - apply Handler_latched. rewrite (Handler_sets_latch b m H0). lia.
  - rewrite (Handler_latched b m Hn). apply Handler_latched. exact Hn.
Qed.

Lemma Handler_keeps_bumper_sensor_value b m :
  bumper_sensor_value (Bumper_Sensors_Handler b m) = bumper_sensor_value m.
Proof.
  unfold Bumper_Sensors_Handler.
  destruct (collision_detected m =? 0); reflexivity.
Qed.

(** C3.  First edge wins.  Invoked with a bitmask [b] while the latch is 0,
    the handler sets the latch to 1 and appends the diagnostic message,
    which is exactly one line, to the output, changing nothing else.
    Invoked while the latch is 1 it returns the machine as it found it.
    Running it twice in a row is the same as running it once. *)
Theorem Bumper_Sensors_Handler_first_edge_wins : forall (b : Z) (m : machine),
  is_u8 b ->
  (collision_detected m = 0 ->
     collision_detected (Bumper_Sensors_Handler b m) = 1
     /\ uart (Bumper_Sensors_Handler b m) = (uart m ++ collision_message b)%string
     /\ lines (uart (Bumper_Sensors_Handler b m)) = S (lines (uart m))
     /\ Bumper_Sensors_Handler b m
          = set_collision_detected 1
              (set_uart (uart m ++ collision_message b)%string m))
  /\ (collision_detected m = 1 -> Bumper_Sensors_Handler b m = m)
  /\ Bumper_Sensors_Handler b (Bumper_Sensors_Handler b m)
       = Bumper_Sensors_Handler b m.
Proof.
  intros b m Hb. split; [| split].
  - intros H0. rewrite (Handler_first_edge b m H0).
    repeat split.
    cbn [uart set_uart set_collision_detected]. unfold lines.
    rewrite count_char_app. fold (lines (collision_message b)).
    rewrite (collision_message_one_line b Hb). fold (lines (uart m)). lia.
  - intros H1. apply Handler_latched. lia.
  - apply Handler_idempotent.
Qed.

Lemma Bumper_Sensors_Handler_first_edge_wins_witness :
  is_u8 0x08
  /\ Bumper_Sensors_Handler 0x08 (Bumper_Sensors_Handler 0x08 reset_machine)
     = Bumper_Sensors_Handler 0x08 reset_machine.
Proof.
  assert (H : is_u8 0x08) by (unfold is_u8; lia).
  split; [exact H |].
  exact (proj2 (proj2 (Bumper_Sensors_Handler_first_edge_wins 0x08 reset_machine H))).
Defined.

(** C8.  On the edge that sets the latch the handler prints one line: the
    text "Collision Detected! Bumper Sensor State: 0x", the two uppercase
    hexadecimal digits of the bitmask it was passed (high nibble first,
    together denoting that bitmask), and a newline.  On an edge that
    arrives while the latch is set it prints nothing. *)
Theorem collision_diagnostic_line : forall (b : Z) (m : machine),
  is_u8 b ->
  let hi := hex_digit_upper (b / 16) in
  let lo := hex_digit_upper (b mod 16) in
  (collision_detected m = 0 ->
     uart (Bumper_Sensors_Handler b m)
       = (uart m ++ "Collision Detected! Bumper Sensor State: 0x"
                 ++ String hi (String lo nl))%string
     /\ lines (uart (Bumper_Sensors_Handler b m)) = S (lines (uart m)))
  /\ is_upper_hex hi = true
  /\ is_upper_hex lo = true
  /\ 16 * hex_value hi + hex_value lo = b
  /\ (collision_detected m <> 0 ->
        uart (Bumper_Sensors_Handler b m) = uart m).
Proof.
  intros b m Hb hi lo. subst hi lo.
  assert (Hq : 0 <= b / 16 < 16).
  { unfold is_u8 in Hb.
    split; [apply Z.div_pos; lia | apply Z.div_lt_upper_bound; lia]. }
  assert (Hr : 0 <= b mod 16 < 16) by (apply Z.mod_pos_bound; lia).
  split; [| split; [| split; [| split]]].
  - intros H0. rewrite (Handler_first_edge b m H0).
    cbn [uart set_uart set_collision_detected]. split.
    + unfold collision_message. rewrite (fmt_02X_u8 b Hb). reflexivity.
    + unfold lines. rewrite count_char_app. fold (lines (collision_message b)).
      rewrite (collision_message_one_line b Hb). fold (lines (uart m)). lia.
  - apply hex_digit_upper_is_upper_hex. exact Hq.
  - apply hex_digit_upper_is_upper_hex. exact Hr.
  - rewrite !hex_value_hex_digit_upper by assumption.
    pose proof (Z.div_mod b 16). lia.
  - intros Hn. rewrite (Handler_latched b m Hn). reflexivity.
Qed.

Lemma collision_diagnostic_line_witness :
  is_u8 0x3C
  /\ (uart (Bumper_Sensors_Handler 0x3C reset_machine)
      = ("Collision Detected! Bumper Sensor State: 0x3C" ++ nl)%string).
Proof.
  assert (H : is_u8 0x3C) by (unfold is_u8; lia).
  split; [exact H |].
  exact (proj1 (proj1 (collision_diagnostic_line 0x3C reset_machine H) eq_refl)).
Defined.

(** C7.  The handler evaluated on the machine [main] leaves behind when it
    enters the loop, for an edge with sensor 3 asserted: the latch goes
    from 0 to 1, and [bumper_sensor_value] still holds 0, not the bitmask
    0x08 the handler was passed. *)
Theorem bumper_sensor_value_not_updated :
  let m := main_init 50000 reset_machine in
  collision_detected m = 0
  /\ bumper_sensor_value m = 0
  /\ collision_detected (Bumper_Sensors_Handler 0x08 m) = 1
  /\ bumper_sensor_value (Bumper_Sensors_Handler 0x08 m) = 0
  /\ bumper_sensor_value (Bumper_Sensors_Handler 0x08 m) <> 0x08.
Proof.
  cbv zeta. repeat split. vm_compute. discriminate.
Qed.

End Handler.

(** ** The periodic indicator task *)

Section IndicatorTask.

Lemma Task_latch_clear m :
  collision_detected m = 0 ->
  Timer_A1_10_Hz_Task m
    = set_P8_OUT (u8 (Z.land (u8 (Z.lxor (P8_OUT m) front_yellow)) (Z.lnot back_red))) m.
Proof.
  intros H. unfold Timer_A1_10_Hz_Task. rewrite H.
  destruct m; reflexivity.
Qed.

Lemma Task_latch_set m :
  collision_detected m <> 0 ->
  Timer_A1_10_Hz_Task m
    = set_P8_OUT (u8 (Z.land (u8 (Z.lxor (P8_OUT m) back_red)) (Z.lnot front_yellow))) m.
Proof.
  intros H. unfold Timer_A1_10_Hz_Task.
  destruct (Z.eqb_spec (collision_detected m) 0); [contradiction |].
  destruct m; reflexivity.
Qed.

(** Bit [i] of a register after "toggle the bits of [t], then clear the
    bits of [c]", both steps truncated to eight bits. *)
Lemma toggle_then_clear_bit out t c i :
  0 <= i < 8 ->
  Z.testbit (u8 (Z.land (u8 (Z.lxor out t)) (Z.lnot c))) i
    = xorb (Z.testbit out i) (Z.testbit t i) && negb (Z.testbit c i).
Proof.
  intros Hi.
  rewrite u8_testbit, Z.land_spec, u8_testbit, Z.lxor_spec, Z.lnot_spec by lia.
  destruct (Z.ltb_spec i 8); [reflexivity | lia].
Qed.

Lemma bits_below_8 i :
  0 <= i < 8 ->
  i = 0 \/ i = 1 \/ i = 2 \/ i = 3 \/ i = 4 \/ i = 5 \/ i = 6 \/ i = 7.
Proof. lia. Qed.

(** C5.  One run of the 10 Hz task, bit by bit of the eight-bit port
    register.  With the latch at 0 the bits of the front-yellow group
    (0x21) are inverted, the bits of the back-red group (0xC0) become 0 and
    every other bit keeps its value; with the latch nonzero the roles of
    the two groups are exchanged.  Nothing but the port register changes. *)
Theorem Timer_A1_10_Hz_Task_indicators : forall (m : machine) (i : Z),
  0 <= i < 8 ->
  let out := P8_OUT m in
  let out' := P8_OUT (Timer_A1_10_Hz_Task m) in
  (collision_detected m = 0 ->
     Z.testbit out' i
       = if Z.testbit front_yellow i then negb (Z.testbit out i)
         else if Z.testbit back_red i then false
         else Z.testbit out i)
  /\ (collision_detected m <> 0 ->
        Z.testbit out' i
          = if Z.testbit back_red i then negb (Z.testbit out i)
            else if Z.testbit front_yellow i then false
            else Z.testbit out i)
  /\ is_u8 out'
  /\ Timer_A1_10_Hz_Task m = set_P8_OUT out' m.
Proof.
  intros m i Hi out out'. subst out out'.
  split; [| split; [| split]].
  - intros H0. rewrite (Task_latch_clear m H0). cbn [P8_OUT set_P8_OUT].
    rewrite toggle_then_clear_bit by exact Hi.
    generalize (Z.testbit (P8_OUT m) i). intros bit.
    destruct (bits_below_8 i Hi) as [-> | [-> | [-> | [-> | [-> | [-> | [-> | ->]]]]]]];
      destruct bit; reflexivity.
  - intros Hn. rewrite (Task_latch_set m Hn). cbn [P8_OUT set_P8_OUT].
    rewrite toggle_then_clear_bit by exact Hi.
    generalize (Z.testbit (P8_OUT m) i). intros bit.
    destruct (bits_below_8 i Hi) as [-> | [-> | [-> | [-> | [-> | [-> | [-> | ->]]]]]]];
      destruct bit; reflexivity.
  - unfold Timer_A1_10_Hz_Task.
    destruct (collision_detected m =? 0); cbn [P8_OUT set_P8_OUT]; apply u8_range.
  - unfold Timer_A1_10_Hz_Task.
    destruct (collision_detected m =? 0); destruct m; reflexivity.
Qed.

Lemma Timer_A1_10_Hz_Task_indicators_witness :
  0 <= 5 < 8
  /\ Z.testbit (P8_OUT (Timer_A1_10_Hz_Task reset_machine)) 5 = true.
Proof.
  assert (H : 0 <= 5 < 8) by lia.
  split; [exact H |].
  exact (proj1 (Timer_A1_10_Hz_Task_indicators reset_machine 5 H) eq_refl).
Defined.

(** C10.  After any run of the 10 Hz task the front-yellow bits and the
    back-red bits of the port register are not both lit: the group that
    does not belong to the current latch state is all zero. *)
Theorem indicator_groups_exclusive : forall m : machine,
  let out' := P8_OUT (Timer_A1_10_Hz_Task m) in
  (collision_detected m = 0 -> Z.land out' back_red = 0)
  /\ (collision_detected m <> 0 -> Z.land out' front_yellow = 0)
  /\ ~ (Z.land out' front_yellow <> 0 /\ Z.land out' back_red <> 0).
Proof.
  intros m out'. subst out'.
  assert (Hclear : collision_detected m = 0 ->
                   Z.land (P8_OUT (Timer_A1_10_Hz_Task m)) back_red = 0).
  { intros H0. rewrite (Task_latch_clear m H0). cbn [P8_OUT set_P8_OUT].
    apply cleared_group_is_zero. }
  assert (Hset : collision_detected m <> 0 ->
                 Z.land (P8_OUT (Timer_A1_10_Hz_Task m)) front_yellow = 0).
  { intros Hn. rewrite (Task_latch_set m Hn). cbn [P8_OUT set_P8_OUT].
    apply cleared_group_is_zero. }
  split; [exact Hclear | split; [exact Hset |]].
  intros [Hy Hr].
  destruct (Z.eq_dec (collision_detected m) 0) as [H0 | Hn].
  - apply Hr, Hclear, H0.
  - apply Hy, Hset, Hn.
Qed.

End IndicatorTask.

(** ** The latch in the running system *)

Section System.

Lemma main_loop_body_preserves : Forall preserves_latch main_loop_body.
Proof. repeat constructor. Qed.

Lemma Drive_Pattern_1_body_preserves : Forall preserves_latch Drive_Pattern_1_body.
Proof. repeat constructor. Qed.

Lemma Handle_Collision_prefix_preserves :
  Forall preserves_latch (firstn 10 Handle_Collision_body).
Proof. repeat constructor. Qed.

Lemma Handle_Collision_body_split :
  Handle_Collision_body
    = firstn 10 Handle_Collision_body ++ [set_collision_detected 0].
Proof. reflexivity. Qed.

(** The statement at the head of a suffix of a body satisfies whatever all
    statements of the body satisfy. *)
Lemma head_of_suffix {A} (P : A -> Prop) (body : list A) :
  Forall P body -> forall n f k, skipn n body = f :: k -> P f.
Proof.
  induction 1 as [| a body Ha Hall IH]; intros n f k Hk.
  - destruct n; discriminate.
  - destruct n as [| n]; simpl in Hk.
    + injection Hk as -> _. exact Ha.
    + exact (IH n f k Hk).
Qed.

(** The same for a body with one more statement [x] at its end: the head
    of a suffix is a statement of the front part, or the suffix is [x] alone. *)
Lemma head_of_suffix_snoc {A} (P : A -> Prop) (front : list A) (x : A) :
  Forall P front ->
  forall n f k, skipn n (front ++ [x]) = f :: k ->
                P f \/ (n = List.length front /\ f = x /\ k = []).
Proof.
  induction 1 as [| a front Ha Hall IH]; intros n f k Hk.
  - destruct n as [| n]; simpl in Hk.
    + injection Hk as <- <-. right. repeat split.
    + destruct n; discriminate.
  - destruct n as [| n]; simpl in Hk.
    + injection Hk as -> _. left. exact Ha.
    + destruct (IH n f k Hk) as [HP | [Hn [Hf Hk0]]].
      * left. exact HP.
      * right. simpl. repeat split; [f_equal; exact Hn | exact Hf | exact Hk0].
Qed.

Lemma Task_keeps_latch m :
  collision_detected (Timer_A1_10_Hz_Task m) = collision_detected m.
Proof.
  unfold Timer_A1_10_Hz_Task. destruct (collision_detected m =? 0); reflexivity.
Qed.

Lemma TA1_0_IRQHandler_keeps_latch m m' :
  TA1_0_IRQHandler m = Some m' -> collision_detected m' = collision_detected m.
Proof.
  unfold TA1_0_IRQHandler. cbn [Timer_A1_Task on_TIMER_A1 set_TIMER_A1].
  destruct (Timer_A1_Task m) as [[] |]; [| discriminate].
  intros H. injection H as <-. cbn [call_task]. rewrite Task_keeps_latch.
  reflexivity.
Qed.

(** C4.  One step of the running system, taken with the main context
    anywhere inside the loop body, the demonstration pattern or the
    recovery maneuver.  If the step changes the latch, then either it is
    a bumper interrupt, and the latch goes from 0 to 1, or it is the main
    context executing the last statement of the recovery maneuver (nothing
    of the maneuver is left afterwards), and the latch goes from 1 to 0.
    Timer interrupts, the loop's back edge and every other statement leave
    the latch alone. *)
Theorem latch_transitions : forall (m : machine) (k : list stmt) (l : label) (c' : config),
  latch_is_boolean m ->
  at_program_point k ->
  step l (m, k) c' ->
  latch c' <> collision_detected m ->
  (exists b, l = L_bumper b /\ collision_detected m = 0 /\ latch c' = 1)
  \/ (l = L_stmt
      /\ k = skipn 10 Handle_Collision_body
      /\ snd c' = []
      /\ collision_detected m = 1
      /\ latch c' = 0).
Proof.
  intros m k l c' Hbool Hpp Hstep Hne.
  inversion Hstep as [m1 f k1 | m1 | m1 k1 b Hb | m1 m1' k1 Hirq]; subst;
    unfold latch in *; cbn [fst snd] in *.
  - (* a statement of the main context *)
    destruct Hpp as (body & n & Hin & Hk). symmetry in Hk.
    assert (Hf : preserves_latch f
                 \/ (body = Handle_Collision_body /\ n = 10%nat
                     /\ f = set_collision_detected 0 /\ k1 = [])).
    { destruct Hin as [<- | [<- | [<- | []]]].
      - left. exact (head_of_suffix _ _ main_loop_body_preserves n f k1 Hk).
      - left. exact (head_of_suffix _ _ Drive_Pattern_1_body_preserves n f k1 Hk).
      - rewrite Handle_Collision_body_split in Hk.
        destruct (head_of_suffix_snoc _ _ _ Handle_Collision_prefix_preserves n f k1 Hk)
          as [HP | (Hn & Hfx & Hk0)].
        + left. exact HP.
        + right. repeat split; assumption. }
    destruct Hf as [HP | (-> & -> & -> & ->)].
    + exfalso. apply Hne. apply HP.
    + right. cbn [collision_detected set_collision_detected] in *.
      repeat split. destruct Hbool as [H0 | H1]; [congruence | exact H1].
  - (* back edge *)
    exfalso. apply Hne. reflexivity.
  - (* bumper interrupt *)
    left. exists b.
    destruct (Z.eq_dec (collision_detected m) 0) as [H0 | Hn].
    + repeat split; [exact H0 | apply Handler_sets_latch; exact H0].
    + exfalso. apply Hne. rewrite (Handler_latched b m Hn). reflexivity.
  - (* timer interrupt *)
    exfalso. apply Hne. exact (TA1_0_IRQHandler_keeps_latch _ _ Hirq).
Qed.

Lemma latch_transitions_witness :
  latch_is_boolean (main_init 50000 reset_machine)
  /\ at_program_point main_loop_body
  /\ step (L_bumper 0x08) (main_init 50000 reset_machine, main_loop_body)
          (machine_after_collision, main_loop_body)
  /\ ((exists b, L_bumper 0x08 = L_bumper b
                 /\ collision_detected (main_init 50000 reset_machine) = 0
                 /\ latch (machine_after_collision, main_loop_body) = 1)
      \/ (L_bumper 0x08 = L_stmt
          /\ main_loop_body = skipn 10 Handle_Collision_body
          /\ snd (machine_after_collision, main_loop_body) = []
          /\ collision_detected (main_init 50000 reset_machine) = 1
          /\ latch (machine_after_collision, main_loop_body) = 0)).
Proof.
  assert (Hbool : latch_is_boolean (main_init 50000 reset_machine))
    by (left; reflexivity).
  assert (Hpp : at_program_point main_loop_body).
  { exists main_loop_body, 0%nat. split; [left; reflexivity | reflexivity]. }
  assert (Hstep : step (L_bumper 0x08) (main_init 50000 reset_machine, main_loop_body)
                       (machine_after_collision, main_loop_body)).
  { apply step_bumper. unfold is_u8. lia. }
  assert (Hne : latch (machine_after_collision, main_loop_body)
                <> collision_detected (main_init 50000 reset_machine)).
  { vm_compute. discriminate. }
  split; [exact Hbool |]. split; [exact Hpp |]. split; [exact Hstep |].
  exact (latch_transitions _ _ _ _ Hbool Hpp Hstep Hne).
Defined.

Lemma skipn_tail {A} (l : list A) :
  forall n f k, skipn n l = f :: k -> skipn (S n) l = k.
Proof.
  induction l as [| a l IH]; intros n f k Hk.
  - destruct n; discriminate.
  - destruct n as [| n]; simpl in Hk.
    + injection Hk as _ <-. reflexivity.
    + exact (IH n f k Hk).
Qed.

Lemma main_init_latch ccr0 m0 : collision_detected (main_init ccr0 m0) = 0.
Proof. reflexivity. Qed.

Lemma main_init_task ccr0 m0 :
  Timer_A1_Task (main_init ccr0 m0) = Some Ptr_Timer_A1_10_Hz_Task.
Proof. reflexivity. Qed.

(** Once [main] is in its loop the latch is 0 or 1 and the main context
    is somewhere inside the loop body. *)
Lemma reachable_invariant ccr0 c :
  reachable ccr0 c ->
  latch_is_boolean (fst c) /\ exists n, snd c = skipn n main_loop_body.
Proof.
  induction 1 as [m0 | l c c' Hreach [Hbool [n Hn]] Hstep].
  - split; [left; apply main_init_latch | exists 0%nat; reflexivity].
  - inversion Hstep as [m f k | m | m k b Hb | m m' k Hirq]; subst;
      cbn [fst snd] in *; unfold latch_is_boolean in *.
    + symmetry in Hn. split.
      * rewrite (head_of_suffix _ _ main_loop_body_preserves n f k Hn). exact Hbool.
      * exists (S n). symmetry. exact (skipn_tail _ _ _ _ Hn).
    + split; [exact Hbool | exists 0%nat; reflexivity].
    + split; [| exists n; exact Hn].
      destruct (Z.eq_dec (collision_detected m) 0) as [H0 | Hnz].
      * right. apply Handler_sets_latch. exact H0.
      * rewrite (Handler_latched b m Hnz). exact Hbool.
    + split; [| exists n; exact Hn].
      rewrite (TA1_0_IRQHandler_keeps_latch _ _ Hirq). exact Hbool.
Qed.

Lemma reachable_at_program_point ccr0 m k :
  reachable ccr0 (m, k) -> latch_is_boolean m /\ at_program_point k.
Proof.
  intros H. destruct (reachable_invariant ccr0 _ H) as [Hbool [n Hn]].
  split; [exact Hbool |].
  exists main_loop_body, n. split; [left; reflexivity | exact Hn].
Qed.

(** In the program as compiled nothing clears the latch after start-up. *)
Lemma latch_stays_set ccr0 l c c' :
  reachable ccr0 c -> step l c c' -> latch c = 1 -> latch c' = 1.
Proof.
  intros Hreach Hstep. destruct (reachable_invariant ccr0 c Hreach) as [_ [n Hn]].
  unfold latch.
  inversion Hstep as [m f k | m | m k b Hb | m m' k Hirq]; subst;
    cbn [fst snd] in *; intros H1.
  - symmetry in Hn.
    rewrite (head_of_suffix _ _ main_loop_body_preserves n f k Hn). exact H1.
  - exact H1.
  - rewrite Handler_latched; [exact H1 | lia].
  - rewrite (TA1_0_IRQHandler_keeps_latch _ _ Hirq). exact H1.
Qed.

Lemma main_loop_iteration_trace m :
  trace (main_loop_iteration m) = trace m ++ sweep_calls.
Proof. run_body. reflexivity. Qed.

(** C6, as the claim states it, at the machine right after a collision:
    the latch is 1, yet one pass through the loop body issues no motor
    command at all (the recovery maneuver issues five) and ends with the
    latch still 1, not cleared. *)
Lemma main_loop_does_not_recover :
  collision_detected machine_after_collision = 1
  /\ motor_commands (emitted main_loop_iteration machine_after_collision) = []
  /\ motor_commands (emitted Handle_Collision machine_after_collision) <> []
  /\ ~ collision_detected (main_loop_iteration machine_after_collision) = 0.
Proof.
  split; [reflexivity |]. split; [reflexivity |].
  split; [vm_compute; discriminate | vm_compute; discriminate].
Qed.

(** C6, amended.  The loop as compiled does not consult the latch: one
    pass through its body makes the eight calls of the servo sweep and
    nothing else, leaves the latch as it found it, and commutes with any
    write to the latch (so it behaves the same whether the latch is clear
    or set).  The recovery maneuver, whenever it is run, ends with the
    latch clear. *)
Theorem main_loop_ignores_latch : forall m : machine,
  emitted main_loop_iteration m = sweep_calls
  /\ motor_commands (emitted main_loop_iteration m) = []
  /\ collision_detected (main_loop_iteration m) = collision_detected m
  /\ (forall v : Z,
        main_loop_iteration (set_collision_detected v m)
          = set_collision_detected v (main_loop_iteration m))
  /\ collision_detected (Handle_Collision m) = 0.
Proof.
  intros m.
  rewrite (emitted_of_app _ _ _ (main_loop_iteration_trace m)).
  repeat split.
Qed.

End System.

(** ** PWM channel *)

Section PWM.

Lemma clamp_range lo hi v : lo <= hi -> lo <= clamp lo hi v <= hi.
Proof. unfold clamp. lia. Qed.

Lemma clamp_above lo hi v : lo <= hi -> hi < v -> clamp lo hi v = hi.
Proof. unfold clamp. lia. Qed.

(** C9.  For a channel with a sixteen-bit period P, [update_duty] on either
    line leaves that line's duty within [0, P] whatever value is passed;
    a value above P yields a duty of exactly P, a pulse as wide as the
    period and no wider.  The duty of the other line and the period are as
    before the call. *)
Theorem update_duty_clamped : forall (ch : pwm_channel) (line : pwm_line) (v : Z),
  is_u16 (pwm_period ch) ->
  let ch' := update_duty line v ch in
  0 <= pwm_duty line ch' <= pwm_period ch'
  /\ (pwm_period ch < v -> pwm_duty line ch' = pwm_period ch)
  /\ pwm_duty (other_line line) ch' = pwm_duty (other_line line) ch
  /\ pwm_period ch' = pwm_period ch.
Proof.
  intros ch line v HP ch'. subst ch'. unfold is_u16 in HP.
  destruct line; cbn [update_duty pwm_duty other_line pwm_period pwm_duty_1 pwm_duty_2];
    (split; [apply clamp_range; lia |]);
    (split; [intros Hv; apply clamp_above; lia |]);
    split; reflexivity.
Qed.

Lemma update_duty_clamped_witness :
  is_u16 60000
  /\ pwm_duty Line_1 (update_duty Line_1 61000 (mk_pwm 60000 1700 7000)) = 60000
  /\ pwm_duty Line_2 (update_duty Line_1 61000 (mk_pwm 60000 1700 7000)) = 7000.
Proof.
  assert (H : is_u16 (pwm_period (mk_pwm 60000 1700 7000))) by (unfold is_u16; simpl; lia).
  split; [exact H |].
  pose proof (update_duty_clamped (mk_pwm 60000 1700 7000) Line_1 61000 H) as Hc.
  cbv zeta in Hc. destruct Hc as (_ & Habove & Hother & _).
  split; [apply Habove; simpl; lia | exact Hother].
Defined.

End PWM.

(** * Further properties of the two files *)

(** ** Bits of sixteen- and thirty-two-bit registers *)

Section RegisterBits.

Lemma u16_testbit x i :
  0 <= i -> Z.testbit (u16 x) i = (i <? 16) && Z.testbit x i.
Proof.
  intros Hi. unfold u16. change 65536 with (2 ^ 16).
  destruct (Z.ltb_spec i 16) as [Hlt | Hge].
  - rewrite Z.mod_pow2_bits_low by lia. reflexivity.
  - rewrite Z.mod_pow2_bits_high by lia. reflexivity.
Qed.

Lemma u32_testbit x i :
  0 <= i -> Z.testbit (u32 x) i = (i <? 32) && Z.testbit x i.
Proof.
  intros Hi. unfold u32. change 4294967296 with (2 ^ 32).
  destruct (Z.ltb_spec i 32) as [Hlt | Hge].
  - rewrite Z.mod_pow2_bits_low by lia. reflexivity.
  - rewrite Z.mod_pow2_bits_high by lia. reflexivity.
Qed.

End RegisterBits.

(** Pushes [Z.testbit] through truncations and bitwise operators. *)
Ltac push_testbit :=
  repeat first
    [ rewrite u8_testbit by lia
    | rewrite u16_testbit by lia
    | rewrite u32_testbit by lia
    | rewrite Z.land_spec
    | rewrite Z.lor_spec
    | rewrite Z.lxor_spec
    | rewrite Z.lnot_spec by lia ].

(** Runs [tac] once for each value [k], [k+1], ... that [i] can take; the
    bounds on [i] are in the context. *)
Ltac enum_bits i k fuel tac :=
  lazymatch fuel with
  | O => exfalso; lia
  | S ?fuel' =>
      destruct (Z.eq_dec i k) as [-> | ?];
      [ tac
      | let k' := eval compute in (k + 1) in enum_bits i k' fuel' tac ]
  end.

(** ** Timer_A1_Interrupt_Init *)

Section TimerInit.

Variables (task : task_ptr) (period : Z) (m : machine).

Let m' := Timer_A1_Interrupt_Init task period m.

Lemma Init_CTL :
  CTL (TIMER_A1 m')
    = u16 (Z.lor (u16 (Z.lor (u16 (Z.land (CTL (TIMER_A1 m)) (Z.lnot 0x0030))) 0x0280)) 0x0014).
Proof. reflexivity. Qed.

Lemma Init_CCTL0 : CCTL0 (TIMER_A1 m') = u16 (Z.lor (CCTL0 (TIMER_A1 m)) 0x0010).
Proof. reflexivity. Qed.

Lemma Init_CCR0 : CCR0 (TIMER_A1 m') = u16 (period - 1).
Proof. reflexivity. Qed.

Lemma Init_EX0 : EX0 (TIMER_A1 m') = u16 (Z.lor (EX0 (TIMER_A1 m)) 0x0005).
Proof. reflexivity. Qed.



(** X1.  The value [Timer_A1_Interrupt_Init] leaves in the control
    register, bit by bit: bits 9 and 7 (upper bits of the clock-source and
    divider fields), bit 4 (up mode) and bit 2 (clear) are 1, bit 5 is 0,
    and every other bit is as before the call.  In particular bits 8 and 6
    are not cleared: the two fields read 10b only if those bits were 0. *)
Theorem Timer_A1_Interrupt_Init_CTL_bits : forall i : Z,
  0 <= i < 16 ->
  Z.testbit (CTL (TIMER_A1 m')) i
    = match i with
      | 2 | 4 | 7 | 9 => true
      | 5 => false
      | _ => Z.testbit (CTL (TIMER_A1 m)) i
      end.
Proof.
  intros i Hi. rewrite Init_CTL. push_testbit.
  generalize (Z.testbit (CTL (TIMER_A1 m)) i). intros b.
  enum_bits i 0 16%nat ltac:(destruct b; reflexivity).
Qed.

(** X2.  The compare register receives the sixteen-bit period minus one.
    For a period of 1 to 65535 the timer therefore counts [period] ticks
    (0 up to [period - 1]); a period of 0 wraps around to 65535, the
    longest count, not the shortest. *)
Theorem Timer_A1_Interrupt_Init_CCR0 :
  is_u16 period ->
  (1 <= period -> CCR0 (TIMER_A1 m') + 1 = period)
  /\ (period = 0 -> CCR0 (TIMER_A1 m') = 65535)
  /\ is_u16 (CCR0 (TIMER_A1 m')).
Proof.
  intros Hp. unfold is_u16 in *. rewrite Init_CCR0. unfold u16.
  split; [| split].
  - intros H1. rewrite Z.mod_small by lia. lia.
  - intros ->. reflexivity.
  - apply Z.mod_pos_bound. lia.
Qed.


(** X4.  Capture/compare control and divider expansion after
    [Timer_A1_Interrupt_Init]: the interrupt-enable bit (bit 4) of CCTL0 is
    1 and bits 2 and 0 of EX0 are 1; all other bits of both registers are
    as before.  Bit 1 of EX0 is not cleared, so the divider field reads
    101b (divide by 6) only if that bit was 0. *)
Theorem Timer_A1_Interrupt_Init_CCTL0_EX0_bits : forall i : Z,
  0 <= i < 16 ->
  Z.testbit (CCTL0 (TIMER_A1 m')) i
    = (if i =? 4 then true else Z.testbit (CCTL0 (TIMER_A1 m)) i)
  /\ Z.testbit (EX0 (TIMER_A1 m')) i
       = match i with
         | 0 | 2 => true
         | _ => Z.testbit (EX0 (TIMER_A1 m)) i
         end.
Proof.
  intros i Hi. rewrite Init_CCTL0, Init_EX0. push_testbit.
  generalize (Z.testbit (CCTL0 (TIMER_A1 m)) i) (Z.testbit (EX0 (TIMER_A1 m)) i).
  intros b1 b2.
  enum_bits i 0 16%nat ltac:(destruct b1, b2; split; reflexivity).
Qed.

End TimerInit.

Lemma Timer_A1_Interrupt_Init_CTL_bits_witness :
  0 <= 5 < 16
  /\ Z.testbit (CTL (TIMER_A1 (Timer_A1_Interrupt_Init Ptr_Timer_A1_10_Hz_Task 50000
                                 (set_TIMER_A1 (mk_timer_a1 0x0020 0 0 0) reset_machine)))) 5
     = false.
Proof.
  assert (H : 0 <= 5 < 16) by lia.
  split; [exact H |].
  exact (Timer_A1_Interrupt_Init_CTL_bits Ptr_Timer_A1_10_Hz_Task 50000
           (set_TIMER_A1 (mk_timer_a1 0x0020 0 0 0) reset_machine) 5 H).
Defined.

Lemma Timer_A1_Interrupt_Init_CCR0_witness :
  is_u16 50000
  /\ CCR0 (TIMER_A1 (Timer_A1_Interrupt_Init Ptr_Timer_A1_10_Hz_Task 50000 reset_machine)) + 1
     = 50000.
Proof.
  assert (H : is_u16 50000) by (unfold is_u16; lia).
  split; [exact H |].
  apply (proj1 (Timer_A1_Interrupt_Init_CCR0 Ptr_Timer_A1_10_Hz_Task 50000 reset_machine H)).
  lia.
Defined.


Lemma Timer_A1_Interrupt_Init_CCTL0_EX0_bits_witness :
  0 <= 1 < 16
  /\ Z.testbit (EX0 (TIMER_A1 (Timer_A1_Interrupt_Init Ptr_Timer_A1_10_Hz_Task 50000
                                 (set_TIMER_A1 (mk_timer_a1 0 0 0 0x0002) reset_machine)))) 1
     = true.
Proof.
  assert (H : 0 <= 1 < 16) by lia.
  split; [exact H |].
  exact (proj2 (Timer_A1_Interrupt_Init_CCTL0_EX0_bits Ptr_Timer_A1_10_Hz_Task 50000
                  (set_TIMER_A1 (mk_timer_a1 0 0 0 0x0002) reset_machine) 1 H)).
Defined.

(** ** Initialising twice, stopping, serving the interrupt *)

Section TimerLifeCycle.





Lemma clear_twice_16 x c :
  u16 (Z.land (u16 (Z.land x (Z.lnot c))) (Z.lnot c)) = u16 (Z.land x (Z.lnot c)).
Proof.
  apply Z.bits_inj'. intros n Hn. push_testbit.
  destruct (n <? 16), (Z.testbit x n), (Z.testbit c n); reflexivity.
Qed.



(** X6.  [TimerA1_Stop], bit by bit: the two mode bits (5 and 4) of the
    control register become 0 and its other bits stay; 0x400 is written to
    the clear-enable register.  The compare registers, the divider and the
    registered callback are left as they were, and stopping twice is the
    same as stopping once. *)
Theorem TimerA1_Stop_bits : forall (m : machine) (i : Z),
  0 <= i < 16 ->
  Z.testbit (CTL (TIMER_A1 (TimerA1_Stop m))) i
    = match i with
      | 4 | 5 => false
      | _ => Z.testbit (CTL (TIMER_A1 m)) i
      end
  /\ ICER0 (NVIC (TimerA1_Stop m)) = 0x400
  /\ CCTL0 (TIMER_A1 (TimerA1_Stop m)) = CCTL0 (TIMER_A1 m)
  /\ CCR0 (TIMER_A1 (TimerA1_Stop m)) = CCR0 (TIMER_A1 m)
  /\ EX0 (TIMER_A1 (TimerA1_Stop m)) = EX0 (TIMER_A1 m)
  /\ Timer_A1_Task (TimerA1_Stop m) = Timer_A1_Task m
  /\ TimerA1_Stop (TimerA1_Stop m) = TimerA1_Stop m.
Proof.
  intros m i Hi. split; [| repeat split].
  - change (CTL (TIMER_A1 (TimerA1_Stop m)))
      with (u16 (Z.land (CTL (TIMER_A1 m)) (Z.lnot 0x0030))).
    push_testbit.
    generalize (Z.testbit (CTL (TIMER_A1 m)) i). intros b.
    enum_bits i 0 16%nat ltac:(destruct b; reflexivity).
  - unfold TimerA1_Stop, on_TIMER_A1, on_NVIC, set_TIMER_A1, set_NVIC, set_CTL, set_ICER0.
    cbn [bumper_sensor_value collision_detected P8_OUT TIMER_A1 NVIC uart trace
         Timer_A1_Task CTL CCTL0 CCR0 EX0 IP2 ISER0 ICER0].
    rewrite clear_twice_16. reflexivity.
Qed.

Lemma TimerA1_Stop_bits_witness :
  0 <= 4 < 16
  /\ Z.testbit (CTL (TIMER_A1 (TimerA1_Stop
        (Timer_A1_Interrupt_Init Ptr_Timer_A1_10_Hz_Task 50000 reset_machine)))) 4
     = false.
Proof.
  assert (H : 0 <= 4 < 16) by lia.
  split; [exact H |].
  exact (proj1 (TimerA1_Stop_bits
                  (Timer_A1_Interrupt_Init Ptr_Timer_A1_10_Hz_Task 50000 reset_machine)
                  4 H)).
Defined.

End TimerLifeCycle.

(** ** TA1_0_IRQHandler *)

Section TimerIRQ.

Lemma Task_reads_latch_and_port m m1 :
  collision_detected m1 = collision_detected m ->
  P8_OUT m1 = P8_OUT m ->
  P8_OUT (Timer_A1_10_Hz_Task m1) = P8_OUT (Timer_A1_10_Hz_Task m).
Proof.
  intros Hl Hp. unfold Timer_A1_10_Hz_Task. rewrite Hl.
  destruct (collision_detected m =? 0); cbn [P8_OUT set_P8_OUT]; rewrite Hp; reflexivity.
Qed.

Lemma Task_fields m :
  Timer_A1_10_Hz_Task m = set_P8_OUT (P8_OUT (Timer_A1_10_Hz_Task m)) m.
Proof.
  unfold Timer_A1_10_Hz_Task.
  destruct (collision_detected m =? 0); destruct m; reflexivity.
Qed.

Lemma TA1_0_IRQHandler_registered m :
  Timer_A1_Task m = Some Ptr_Timer_A1_10_Hz_Task ->
  TA1_0_IRQHandler m
    = Some (Timer_A1_10_Hz_Task
              (on_TIMER_A1
                 (fun r => set_CCTL0 (u16 (Z.land (CCTL0 r) (Z.lnot 0x0001))) r) m)).
Proof.
  intros H. unfold TA1_0_IRQHandler.
  cbn [Timer_A1_Task on_TIMER_A1 set_TIMER_A1]. rewrite H. reflexivity.
Qed.

(** X7.  With a callback registered, the Timer A1 interrupt handler
    acknowledges the interrupt and runs the 10 Hz task: bit 0 of CCTL0 (the
    pending flag) becomes 0 while every other bit of it, the enable bit
    included, stays; the port register ends up as the task leaves it; the
    latch, the printed output, the call trace and the registered callback
    are untouched. *)
Theorem TA1_0_IRQHandler_serves : forall (m : machine) (i : Z),
  0 <= i < 16 ->
  Timer_A1_Task m <> None ->
  exists m1,
    TA1_0_IRQHandler m = Some m1
    /\ Z.testbit (CCTL0 (TIMER_A1 m1)) i
         = (if i =? 0 then false else Z.testbit (CCTL0 (TIMER_A1 m)) i)
    /\ P8_OUT m1 = P8_OUT (Timer_A1_10_Hz_Task m)
    /\ collision_detected m1 = collision_detected m
    /\ uart m1 = uart m
    /\ trace m1 = trace m
    /\ Timer_A1_Task m1 = Timer_A1_Task m.
Proof.
  intros m i Hi Htask.
  destruct (Timer_A1_Task m) as [[] |] eqn:Ht; [| contradiction].
  eexists. split; [apply TA1_0_IRQHandler_registered; exact Ht |].
  rewrite Task_fields.
  split; [| split; [| repeat split]].
  - cbn [TIMER_A1 set_P8_OUT on_TIMER_A1 set_TIMER_A1 CCTL0 set_CCTL0].
    push_testbit.
    generalize (Z.testbit (CCTL0 (TIMER_A1 m)) i). intros b.
    enum_bits i 0 16%nat ltac:(destruct b; reflexivity).
  - cbn [P8_OUT set_P8_OUT]. apply Task_reads_latch_and_port; reflexivity.
  - cbn [Timer_A1_Task set_P8_OUT on_TIMER_A1 set_TIMER_A1]. exact Ht.
Qed.

Lemma TA1_0_IRQHandler_serves_witness :
  0 <= 0 < 16
  /\ Timer_A1_Task (main_init 50000 reset_machine) <> None
  /\ exists m1,
       TA1_0_IRQHandler (main_init 50000 reset_machine) = Some m1
       /\ Z.testbit (CCTL0 (TIMER_A1 m1)) 0 = false.
Proof.
  assert (H : 0 <= 0 < 16) by lia.
  assert (Ht : Timer_A1_Task (main_init 50000 reset_machine) <> None)
    by (vm_compute; discriminate).
  split; [exact H |]. split; [exact Ht |].
  destruct (TA1_0_IRQHandler_serves (main_init 50000 reset_machine) 0 H Ht)
    as (m1 & Hsome & Hbit & _).
  exists m1. split; [exact Hsome | exact Hbit].
Defined.

(** X8.  The handler calls through the callback pointer without checking
    it: it fails exactly when no callback has been registered.  After
    [Timer_A1_Interrupt_Init] it always succeeds, and once it has served
    the interrupt the enable bit of CCTL0 set by the initialisation is
    still 1 and the pending flag is 0, so the next compare event
    interrupts again. *)
Theorem TA1_0_IRQHandler_needs_task : forall m : machine,
  (TA1_0_IRQHandler m = None <-> Timer_A1_Task m = None)
  /\ forall (task : task_ptr) (period : Z),
       exists m1,
         TA1_0_IRQHandler (Timer_A1_Interrupt_Init task period m) = Some m1
         /\ Z.testbit (CCTL0 (TIMER_A1 m1)) 4 = true
         /\ Z.testbit (CCTL0 (TIMER_A1 m1)) 0 = false.
Proof.
  intros m. split.
  - unfold TA1_0_IRQHandler. cbn [Timer_A1_Task on_TIMER_A1 set_TIMER_A1].
    destruct (Timer_A1_Task m); split; intros H; (discriminate || reflexivity).
  - intros [] period. eexists. split.
    + apply TA1_0_IRQHandler_registered. reflexivity.
    + rewrite Task_fields.
      cbn [TIMER_A1 set_P8_OUT on_TIMER_A1 set_TIMER_A1 CCTL0 set_CCTL0].
      rewrite Init_CCTL0. push_testbit.
      generalize (Z.testbit (CCTL0 (TIMER_A1 m)) 4)
                 (Z.testbit (CCTL0 (TIMER_A1 m)) 0).
      intros b4 b0. destruct b4, b0; split; reflexivity.
Qed.

End TimerIRQ.

(** ** The indicator over several ticks *)

Section Blink.

Lemma toggle_clear_thrice x t c :
  u8 (Z.land (u8 (Z.lxor
    (u8 (Z.land (u8 (Z.lxor
       (u8 (Z.land (u8 (Z.lxor x t)) (Z.lnot c))) t)) (Z.lnot c))) t)) (Z.lnot c))
  = u8 (Z.land (u8 (Z.lxor x t)) (Z.lnot c)).
Proof.
  apply Z.bits_inj'. intros n Hn. push_testbit.
  destruct (n <? 8), (Z.testbit x n), (Z.testbit t n), (Z.testbit c n); reflexivity.
Qed.

Lemma toggle_clear_twice x t c :
  u8 (Z.land (u8 (Z.lxor (u8 (Z.land (u8 (Z.lxor x t)) (Z.lnot c))) t)) (Z.lnot c))
  = u8 (Z.land x (Z.lnot c)).
Proof.
  apply Z.bits_inj'. intros n Hn. push_testbit.
  destruct (n <? 8), (Z.testbit x n), (Z.testbit t n), (Z.testbit c n); reflexivity.
Qed.

(** X9.  With the latch unchanged in between, the indicator blinks with a
    period of two ticks: two runs of the task put the toggled group back
    to what it was and leave the other group cleared, and three runs give
    the same machine as one. *)
Theorem Timer_A1_10_Hz_Task_period_two : forall m : machine,
  Timer_A1_10_Hz_Task (Timer_A1_10_Hz_Task (Timer_A1_10_Hz_Task m))
    = Timer_A1_10_Hz_Task m
  /\ (collision_detected m = 0 ->
        P8_OUT (Timer_A1_10_Hz_Task (Timer_A1_10_Hz_Task m))
          = u8 (Z.land (P8_OUT m) (Z.lnot back_red)))
  /\ (collision_detected m <> 0 ->
        P8_OUT (Timer_A1_10_Hz_Task (Timer_A1_10_Hz_Task m))
          = u8 (Z.land (P8_OUT m) (Z.lnot front_yellow))).
Proof.
  intros m.
  destruct (Z.eq_dec (collision_detected m) 0) as [H0 | Hn].
  - assert (Hset : forall v, collision_detected (set_P8_OUT v m) = 0) by (intros; exact H0).
    split; [| split; [intros _ | intros Hc; contradiction]].
    + rewrite (Task_latch_clear m H0).
      rewrite (Task_latch_clear _ (Hset _)). cbn [P8_OUT set_P8_OUT].
      change (set_P8_OUT ?a (set_P8_OUT ?b m)) with (set_P8_OUT a m).
      rewrite (Task_latch_clear _ (Hset _)). cbn [P8_OUT set_P8_OUT].
      change (set_P8_OUT ?a (set_P8_OUT ?b m)) with (set_P8_OUT a m).
      rewrite toggle_clear_thrice. reflexivity.
    + rewrite (Task_latch_clear m H0).
      rewrite (Task_latch_clear _ (Hset _)). cbn [P8_OUT set_P8_OUT].
      apply toggle_clear_twice.
  - assert (Hset : forall v, collision_detected (set_P8_OUT v m) <> 0) by (intros; exact Hn).
    split; [| split; [intros Hc; contradiction | intros _]].
    + rewrite (Task_latch_set m Hn).
      rewrite (Task_latch_set _ (Hset _)). cbn [P8_OUT set_P8_OUT].
      change (set_P8_OUT ?a (set_P8_OUT ?b m)) with (set_P8_OUT a m).
      rewrite (Task_latch_set _ (Hset _)). cbn [P8_OUT set_P8_OUT].
      change (set_P8_OUT ?a (set_P8_OUT ?b m)) with (set_P8_OUT a m).
      rewrite toggle_clear_thrice. reflexivity.
    + rewrite (Task_latch_set m Hn).
      rewrite (Task_latch_set _ (Hset _)). cbn [P8_OUT set_P8_OUT].
      apply toggle_clear_twice.
Qed.

End Blink.

(** ** Interrupts against the statements of the main context *)

Section Commutation.




End Commutation.

(** ** What main sets up *)

Section MainInit.

Lemma main_init_trace ccr0 m0 :
  trace (main_init ccr0 m0) = trace m0 ++ init_calls.
Proof.
  cbv [main_init run main_init_body fold_left emit set_collision_detected
       Timer_A1_Interrupt_Init on_TIMER_A1 on_NVIC set_TIMER_A1 set_NVIC
       set_Timer_A1_Task trace bumper_sensor_value collision_detected P8_OUT
       TIMER_A1 NVIC Timer_A1_Task uart].
  rewrite <- ?app_assoc. reflexivity.
Qed.

(** X11.  [main] enables interrupts as its last set-up call.  In the
    machine it has built just before that call the latch is 0, whatever it
    held at power-up, and the 10 Hz task is registered, so no handler can
    run before both are in place; the ten driver calls are made in the
    order of the source. *)
Theorem main_init_establishes : forall (ccr0 : Z) (m0 : machine),
  emitted (main_init ccr0) m0 = init_calls
  /\ main_init ccr0 m0
       = emit (Ev_Init Init_EnableInterrupts) (run (firstn 11 (main_init_body ccr0)) m0)
  /\ collision_detected (run (firstn 11 (main_init_body ccr0)) m0) = 0
  /\ Timer_A1_Task (run (firstn 11 (main_init_body ccr0)) m0)
       = Some Ptr_Timer_A1_10_Hz_Task
  /\ motor_commands (emitted (main_init ccr0) m0) = [].
Proof.
  intros ccr0 m0.
  rewrite (emitted_of_app _ _ _ (main_init_trace ccr0 m0)).
  repeat split.
Qed.

End MainInit.

(** ** The program from start-up on *)

Section Runs.

Lemma concat_repeat_snoc {A} (x : list A) q :
  List.concat (repeat x (S q)) = List.concat (repeat x q) ++ x.
Proof.
  induction q as [| q IH].
  - simpl. rewrite app_nil_r. reflexivity.
  - change (List.concat (repeat x (S (S q))))
      with (x ++ List.concat (repeat x (S q))).
    rewrite IH at 1. rewrite app_assoc. reflexivity.
Qed.

Lemma motor_commands_app t1 t2 :
  motor_commands (t1 ++ t2) = motor_commands t1 ++ motor_commands t2.
Proof.
  induction t1 as [| e t1 IH]; [reflexivity |].
  destruct e; simpl; rewrite IH; reflexivity.
Qed.

Lemma motor_commands_sweep_trace q n : motor_commands (sweep_trace q n) = [].
Proof.
  unfold sweep_trace. rewrite motor_commands_app.
  assert (Hq : motor_commands (List.concat (repeat sweep_calls q)) = []).
  { induction q as [| q IH]; [reflexivity |].
    change (List.concat (repeat sweep_calls (S q)))
      with (sweep_calls ++ List.concat (repeat sweep_calls q)).
    rewrite motor_commands_app, IH. reflexivity. }
  rewrite Hq. simpl.
  do 9 (destruct n as [| n]; [reflexivity |]). reflexivity.
Qed.

(** The statement the main context is at, [n] statements into the loop
    body, makes the call at position [n] of the sweep. *)
Lemma loop_stmt_at n f k :
  skipn n main_loop_body = f :: k ->
  (n < 8)%nat
  /\ k = skipn (S n) main_loop_body
  /\ exists e, f = emit e /\ firstn (S n) sweep_calls = firstn n sweep_calls ++ [e].
Proof.
  intros H.
  do 8 (destruct n as [| n];
        [ injection H as <- <-; split; [lia |]; split; [reflexivity |];
          eexists; split; reflexivity |]).
  destruct n; discriminate.
Qed.

Lemma loop_end n :
  (n <= 8)%nat -> skipn n main_loop_body = [] -> n = 8%nat.
Proof.
  intros Hle H.
  do 8 (destruct n as [| n]; [discriminate |]). lia.
Qed.

Lemma Task_groups_exclusive m : groups_exclusive (P8_OUT (Timer_A1_10_Hz_Task m)).
Proof.
  unfold groups_exclusive.
  destruct (Z.eq_dec (collision_detected m) 0) as [H0 | Hn].
  - right. rewrite (Task_latch_clear m H0). apply cleared_group_is_zero.
  - left. rewrite (Task_latch_set m Hn). apply cleared_group_is_zero.
Qed.

(** The fields a served timer interrupt leaves behind. *)
Lemma TA1_0_IRQHandler_fields m m1 :
  TA1_0_IRQHandler m = Some m1 ->
  P8_OUT m1 = P8_OUT (Timer_A1_10_Hz_Task m)
  /\ collision_detected m1 = collision_detected m
  /\ bumper_sensor_value m1 = bumper_sensor_value m
  /\ uart m1 = uart m
  /\ trace m1 = trace m
  /\ Timer_A1_Task m1 = Timer_A1_Task m.
Proof.
  unfold TA1_0_IRQHandler. cbn [Timer_A1_Task on_TIMER_A1 set_TIMER_A1].
  destruct (Timer_A1_Task m) as [[] |] eqn:Ht; [| discriminate].
  intros H. injection H as <-. cbn [call_task]. rewrite Task_fields.
  split; [| repeat split; exact Ht].
  cbn [P8_OUT set_P8_OUT]. apply Task_reads_latch_and_port; reflexivity.
Qed.

Lemma Handler_fields b m :
  P8_OUT (Bumper_Sensors_Handler b m) = P8_OUT m
  /\ trace (Bumper_Sensors_Handler b m) = trace m
  /\ Timer_A1_Task (Bumper_Sensors_Handler b m) = Timer_A1_Task m.
Proof.
  unfold Bumper_Sensors_Handler.
  destruct (collision_detected m =? 0); repeat split.
Qed.

(** Everything that holds of each configuration the program passes
    through after [main] has entered its loop. *)
Lemma run_invariant ccr0 m0 c :
  run_to (start ccr0 m0) c ->
  (exists q n, (n <= 8)%nat
               /\ snd c = skipn n main_loop_body
               /\ trace (fst c) = trace (main_init ccr0 m0) ++ sweep_trace q n)
  /\ bumper_sensor_value (fst c) = bumper_sensor_value m0
  /\ Timer_A1_Task (fst c) = Some Ptr_Timer_A1_10_Hz_Task
  /\ ((collision_detected (fst c) = 0 /\ uart (fst c) = uart m0)
      \/ (collision_detected (fst c) = 1
          /\ exists b, is_u8 b
                       /\ uart (fst c) = (uart m0 ++ collision_message b)%string))
  /\ (P8_OUT (fst c) = P8_OUT m0 \/ groups_exclusive (P8_OUT (fst c))).
Proof.
  intros H. remember (start ccr0 m0) as c0 eqn:E.
  induction H as [c | c c' c'' l Hrun IH Hstep]; subst c.
  - cbn [start fst snd]. split; [| repeat split].
    + exists 0%nat, 0%nat. split; [lia |]. split; [reflexivity |].
      unfold sweep_trace. simpl. rewrite app_nil_r. reflexivity.
    + left. split; reflexivity.
    + left. reflexivity.
  - destruct (IH eq_refl) as ((q & n & Hn & Hk & Htr) & Hbsv & Htask & Huart & Hport).
    clear IH Hrun.
    inversion Hstep as [m f k | m | m k b Hb | m m1 k Hirq]; subst;
      cbn [fst snd] in *.
    + (* statement *)
      symmetry in Hk.
      destruct (loop_stmt_at n f k Hk) as (Hlt & -> & e & -> & Hfirst).
      cbn [trace bumper_sensor_value Timer_A1_Task collision_detected uart P8_OUT emit].
      split; [| repeat split; assumption].
      exists q, (S n). split; [lia |]. split; [reflexivity |].
      rewrite Htr. unfold sweep_trace. rewrite Hfirst.
      rewrite <- !app_assoc. reflexivity.
    + (* back edge *)
      split; [| repeat split; assumption].
      symmetry in Hk. rewrite (loop_end n Hn Hk) in Htr.
      exists (S q), 0%nat. split; [lia |]. split; [reflexivity |].
      rewrite Htr. unfold sweep_trace.
      rewrite concat_repeat_snoc. simpl firstn. rewrite app_nil_r. reflexivity.
    + (* bumper interrupt *)
      destruct (Handler_fields b m) as (Hp & Ht & Hta).
      rewrite Hp, Ht, Hta, Handler_keeps_bumper_sensor_value.
      split; [exists q, n; repeat split; assumption |].
      split; [assumption |]. split; [assumption |]. split; [| assumption].
      destruct Huart as [[H0 Hu] | [H1 Hu]].
      * right. rewrite (Handler_first_edge b m H0).
        cbn [collision_detected uart set_collision_detected set_uart].
        split; [reflexivity |]. exists b. split; [exact Hb |].
        rewrite Hu. reflexivity.
      * right. rewrite Handler_latched by lia. split; assumption.
    + (* timer interrupt *)
      destruct (TA1_0_IRQHandler_fields m m1 Hirq) as (Hp & Hl & Hb & Hu & Ht & Hta).
      rewrite Hp, Hl, Hb, Hu, Ht, Hta.
      split; [exists q, n; repeat split; assumption |].
      split; [assumption |]. split; [assumption |]. split; [assumption |].
      right. apply Task_groups_exclusive.
Qed.

End Runs.

Section AfterStartUp.

Lemma first_collision_run :
  run_to (start 50000 reset_machine) (machine_after_collision, main_loop_body).
Proof.
  apply (run_step _ (start 50000 reset_machine) _ (L_bumper 0x08)).
  - apply run_refl.
  - apply step_bumper. unfold is_u8. lia.
Defined.

(** While the latch is set, nothing the running program does clears it or
    prints. *)
Lemma run_latched c c' :
  run_to c c' ->
  (exists n, snd c = skipn n main_loop_body) ->
  latch c = 1 ->
  (exists n', snd c' = skipn n' main_loop_body)
  /\ latch c' = 1
  /\ uart (fst c') = uart (fst c).
Proof.
  intros Hrun Hpp H1. unfold latch in *.
  induction Hrun as [c | c c' c'' l Hrun IH Hstep].
  - split; [exact Hpp |]. split; [exact H1 | reflexivity].
  - destruct (IH Hpp H1) as ((n & Hk) & Hl & Hu). clear IH Hrun.
    inversion Hstep as [m f k | m | m k b Hb | m m1 k Hirq]; subst;
      cbn [fst snd] in *.
    + symmetry in Hk.
      destruct (loop_stmt_at n f k Hk) as (_ & -> & e & -> & _).
      split; [exists (S n); reflexivity |]. split; assumption.
    + split; [exists 0%nat; reflexivity |]. split; assumption.
    + rewrite Handler_latched by lia.
      split; [exists n; exact Hk |]. split; assumption.
    + destruct (TA1_0_IRQHandler_fields m m1 Hirq) as (_ & Hl1 & _ & Hu1 & _).
      rewrite Hl1, Hu1. split; [exists n; exact Hk |]. split; assumption.
Qed.

(** X12.  Whatever interrupts arrive, the driver calls the program has
    made at any moment after start-up are the ten set-up calls followed by
    the servo sweep repeated some number of times and cut off where the
    main context stands.  No motor command is among them: in this build
    the motors are initialised and never driven. *)
Theorem calls_after_start_up : forall (ccr0 : Z) (m0 : machine) (c : config),
  run_to (start ccr0 m0) c ->
  exists q n,
    (n <= 8)%nat
    /\ snd c = skipn n main_loop_body
    /\ trace (fst c) = trace m0 ++ init_calls ++ sweep_trace q n
    /\ motor_commands (init_calls ++ sweep_trace q n) = [].
Proof.
  intros ccr0 m0 c H.
  destruct (run_invariant ccr0 m0 c H) as ((q & n & Hn & Hk & Htr) & _).
  exists q, n. split; [exact Hn |]. split; [exact Hk |]. split.
  - rewrite Htr, main_init_trace, <- app_assoc. reflexivity.
  - rewrite motor_commands_app, motor_commands_sweep_trace. reflexivity.
Qed.

Lemma calls_after_start_up_witness :
  run_to (start 50000 reset_machine) (machine_after_collision, main_loop_body)
  /\ exists q n,
       (n <= 8)%nat
       /\ snd (machine_after_collision, main_loop_body) = skipn n main_loop_body
       /\ trace (fst (machine_after_collision, main_loop_body))
            = trace reset_machine ++ init_calls ++ sweep_trace q n
       /\ motor_commands (init_calls ++ sweep_trace q n) = [].
Proof.
  split; [exact first_collision_run |].
  exact (calls_after_start_up 50000 reset_machine _ first_collision_run).
Defined.

(** X13.  After start-up the program prints at most one diagnostic line:
    as long as the latch is 0 nothing has been printed since [main]
    entered its loop, and once it is 1 the output is the output at loop
    entry followed by the single message of one eight-bit bitmask, however
    many edges have arrived since. *)
Theorem diagnostic_printed_at_most_once : forall (ccr0 : Z) (m0 : machine) (c : config),
  run_to (start ccr0 m0) c ->
  (latch c = 0 /\ uart (fst c) = uart (main_init ccr0 m0))
  \/ (latch c = 1
      /\ exists b, is_u8 b
                   /\ uart (fst c)
                      = (uart (main_init ccr0 m0) ++ collision_message b)%string).
Proof.
  intros ccr0 m0 c H.
  destruct (run_invariant ccr0 m0 c H) as (_ & _ & _ & Hu & _). exact Hu.
Qed.

Lemma diagnostic_printed_at_most_once_witness :
  run_to (start 50000 reset_machine) (machine_after_collision, main_loop_body)
  /\ ((latch (machine_after_collision, main_loop_body) = 0
       /\ uart (fst (machine_after_collision, main_loop_body))
          = uart (main_init 50000 reset_machine))
      \/ (latch (machine_after_collision, main_loop_body) = 1
          /\ exists b, is_u8 b
                       /\ uart (fst (machine_after_collision, main_loop_body))
                          = (uart (main_init 50000 reset_machine)
                             ++ collision_message b)%string)).
Proof.
  split; [exact first_collision_run |].
  exact (diagnostic_printed_at_most_once 50000 reset_machine _ first_collision_run).
Defined.

(** X14.  No step of the running program writes [bumper_sensor_value]:
    at every moment after start-up it holds what it held when [main]
    entered its loop, whatever bitmasks the bumper interrupts carried. *)
Theorem bumper_sensor_value_constant : forall (ccr0 : Z) (m0 : machine) (c : config),
  run_to (start ccr0 m0) c ->
  bumper_sensor_value (fst c) = bumper_sensor_value (main_init ccr0 m0).
Proof.
  intros ccr0 m0 c H.
  destruct (run_invariant ccr0 m0 c H) as (_ & Hb & _). exact Hb.
Qed.

Lemma bumper_sensor_value_constant_witness :
  run_to (start 50000 reset_machine) (machine_after_collision, main_loop_body)
  /\ bumper_sensor_value (fst (machine_after_collision, main_loop_body))
     = bumper_sensor_value (main_init 50000 reset_machine).
Proof.
  split; [exact first_collision_run |].
  exact (bumper_sensor_value_constant 50000 reset_machine _ first_collision_run).
Defined.

(** X15.  In the program as compiled the latch is set for good: from any
    configuration reached after start-up in which the latch is 1, every
    later configuration has the latch at 1 and the same printed output. *)
Theorem latch_set_for_good : forall (ccr0 : Z) (m0 : machine) (c c' : config),
  run_to (start ccr0 m0) c ->
  run_to c c' ->
  latch c = 1 ->
  latch c' = 1 /\ uart (fst c') = uart (fst c).
Proof.
  intros ccr0 m0 c c' H0 H H1.
  destruct (run_invariant ccr0 m0 c H0) as ((q & n & _ & Hk & _) & _).
  destruct (run_latched c c' H (ex_intro _ n Hk) H1) as (_ & Hl & Hu).
  split; assumption.
Qed.

Lemma latch_set_for_good_witness :
  run_to (start 50000 reset_machine) (machine_after_collision, main_loop_body)
  /\ run_to (machine_after_collision, main_loop_body)
            (Bumper_Sensors_Handler 0x21 machine_after_collision, main_loop_body)
  /\ latch (machine_after_collision, main_loop_body) = 1
  /\ latch (Bumper_Sensors_Handler 0x21 machine_after_collision, main_loop_body) = 1.
Proof.
  assert (H2 : run_to (machine_after_collision, main_loop_body)
                 (Bumper_Sensors_Handler 0x21 machine_after_collision, main_loop_body)).
  { apply (run_step _ (machine_after_collision, main_loop_body) _ (L_bumper 0x21)).
    - apply run_refl.
    - apply step_bumper. unfold is_u8. lia. }
  split; [exact first_collision_run |]. split; [exact H2 |].
  split; [reflexivity |].
  exact (proj1 (latch_set_for_good 50000 reset_machine _ _ first_collision_run H2 eq_refl)).
Defined.

(** X16.  At every moment after start-up the timer interrupt can be
    served: the callback pointer the handler calls through is set. *)
Theorem timer_interrupt_always_served : forall (ccr0 : Z) (m0 : machine) (c : config),
  run_to (start ccr0 m0) c ->
  exists m1, TA1_0_IRQHandler (fst c) = Some m1 /\ step L_timer c (m1, snd c).
Proof.
  intros ccr0 m0 [m k] H.
  destruct (run_invariant ccr0 m0 _ H) as (_ & _ & Ht & _). cbn [fst snd] in *.
  eexists. split.
  - apply TA1_0_IRQHandler_registered. exact Ht.
  - apply step_timer. apply TA1_0_IRQHandler_registered. exact Ht.
Qed.

Lemma timer_interrupt_always_served_witness :
  run_to (start 50000 reset_machine) (machine_after_collision, main_loop_body)
  /\ exists m1,
       TA1_0_IRQHandler (fst (machine_after_collision, main_loop_body)) = Some m1
       /\ step L_timer (machine_after_collision, main_loop_body)
                       (m1, snd (machine_after_collision, main_loop_body)).
Proof.
  split; [exact first_collision_run |].
  exact (timer_interrupt_always_served 50000 reset_machine _ first_collision_run).
Defined.



End AfterStartUp.
